(** * AIPilot: the DeepSeek client, the AI node and the work-node dispatch

    A shallow embedding of
    - [src/worknode/ai_node/deepseek.rs]  (DeepSeekUsage, DeepSeekClient)
    - [src/worknode/ai_node.rs]           (Chat, AIService, AINode)
    - [src/worknode.rs]                   (Worknodecore)
    - [src/error*.rs]                     (the three error layers)

    The network, the JSON text parser and the JSON printer of the [json]
    crate are not part of the repository: they are the fields of the
    record [Env] below, and every statement is made for all of them. *)

From Stdlib Require Import String Ascii List ZArith QArith Bool Lia.
Import ListNotations.
Open Scope Z_scope.
Open Scope string_scope.
Set Warnings "-register-all".

(* ------------------------------------------------------------------ *)
(** ** Machine numbers *)

(** [f64]: a finite value (a rational; every finite double is one), an
    infinity ([F64Inf true] is minus infinity) or NaN. *)
Inductive f64 : Type :=
| F64 (q : Q)
| F64Inf (neg : bool)
| F64NaN.

Definition Q_ltb (a b : Q) : bool :=
  Z.ltb (Qnum a * Zpos (Qden b)) (Qnum b * Zpos (Qden a)).

(** IEEE-754 [<]: every comparison with NaN is false. *)
Definition f64_lt (x y : f64) : bool :=
  match x, y with
  | F64NaN, _ | _, F64NaN => false
  | F64 a, F64 b => Q_ltb a b
  | F64Inf true, F64Inf nb => negb nb
  | F64Inf false, _ => false
  | F64Inf true, F64 _ => true
  | F64 _, F64Inf nb => negb nb
  end.

Definition f64_gt (x y : f64) : bool := f64_lt y x.

Definition i64_min : Z := - 2 ^ 63.
Definition i64_max : Z := 2 ^ 63 - 1.

(** Two's-complement wrap-around of a 64-bit [+] (the release profile,
    where overflow checks are off). *)
Definition wrap_i64 (z : Z) : Z := (z + 2 ^ 63) mod 2 ^ 64 - 2 ^ 63.

Definition i64_add (a b : Z) : Z := wrap_i64 (a + b).

Definition in_i64 (z : Z) : Prop := i64_min <= z <= i64_max.

(* ------------------------------------------------------------------ *)
(** ** JSON values of the [json] crate *)

Inductive json : Type :=
| JNull
| JBool (b : bool)
| JNumber (n : f64)
| JString (s : string)
| JArray (l : list json)
| JObject (fields : list (string * json)).

Fixpoint assoc_get (k : string) (l : list (string * json)) : option json :=
  match l with
  | [] => None
  | (k', v) :: l' => if String.eqb k k' then Some v else assoc_get k l'
  end.

(** [value["key"]]: [Null] when the key is missing or [value] is no object. *)
Definition index_key (j : json) (k : string) : json :=
  match j with
  | JObject fs => match assoc_get k fs with Some v => v | None => JNull end
  | _ => JNull
  end.

(** [value[i]]: [Null] when out of range or [value] is no array. *)
Definition index_nth (j : json) (i : nat) : json :=
  match j with
  | JArray l => nth i l JNull
  | _ => JNull
  end.

Definition is_null (j : json) : bool :=
  match j with JNull => true | _ => false end.

Definition Q_is_zero (q : Q) : bool := Z.eqb (Qnum q) 0.

Definition is_empty (j : json) : bool :=
  match j with
  | JNull => true
  | JBool b => negb b
  | JNumber (F64 q) => Q_is_zero q
  | JNumber _ => false
  | JString s => String.eqb s ""
  | JArray l => match l with [] => true | _ => false end
  | JObject fs => match fs with [] => true | _ => false end
  end.

(** [as_i64]: a number with an integral value in the [i64] range. The
    crate also refuses numbers written with a fraction or an exponent, such
    as [5.0]; on rationals those are accepted here, so this [as_i64]
    succeeds on a superset of the inputs the crate accepts. *)
Definition as_i64 (j : json) : option Z :=
  match j with
  | JNumber (F64 q) =>
      let r := Qred q in
      if Pos.eqb (Qden r) 1 && Z.leb i64_min (Qnum r) && Z.leb (Qnum r) i64_max
      then Some (Qnum r) else None
  | _ => None
  end.

Definition json_of_f64 (x : f64) : json := JNumber x.
Definition json_of_i32 (z : Z) : json := JNumber (F64 (inject_Z z)).
Definition json_of_opt_i32 (o : option Z) : json :=
  match o with Some z => json_of_i32 z | None => JNull end.

(** The external collaborators: the HTTP client ([reqwest]), the JSON text
    parser and printer ([json::parse], [JsonValue::dump]) and the display of
    an HTTP status code. *)
Record http_request : Type := {
  req_url : string;
  req_headers : list (string * string);
  req_body : json  (** the body is [req_body] printed by [dump] *)
}.

Record http_response : Type := {
  resp_status : Z;
  resp_text : string + string  (** [inl] the body text, [inr] a read error *)
}.

Record Env : Type := {
  post : http_request -> option http_response;  (** [None]: [send] failed *)
  parse : string -> json + string;              (** [inr]: the parse error *)
  dump : json -> string;
  show_status : Z -> string
}.

(** [JsonValue::to_string]: strings print without quotes, the rest is
    the dump. *)
Definition json_to_string (env : Env) (j : json) : string :=
  match j with
  | JString s => s
  | _ => dump env j
  end.

Inductive result (A E : Type) : Type :=
| Ok (a : A)
| Err (e : E).
Arguments Ok {A E} a.
Arguments Err {A E} e.

(* ------------------------------------------------------------------ *)
(** ** Errors ([src/error.rs], [src/error/ai_node_error*.rs]) *)

(** [DeepSeekErrorType]. [ResponseError] is used by [send_request] but not
    declared in [deepseek_error.rs]; it is added here as the fourth kind. *)
Inductive DeepSeekErrorType : Type :=
| RequestParamError
| RequestError
| ApiKeyError
| ResponseError.

Record DeepSeekError : Type := mk_DeepSeekError {
  ds_error_type : DeepSeekErrorType;
  ds_message : string
}.

Inductive AINodeErrorType : Type :=
| DeepSeekErr (e : DeepSeekError).

Record AINodeError : Type := mk_AINodeError {
  ai_error_type : AINodeErrorType;
  ai_message : string
}.

Inductive PilotErrorType : Type :=
| AINodeErr (e : AINodeError).

Record PilotError : Type := mk_PilotError {
  pilot_error_type : PilotErrorType;
  pilot_message : string
}.

(* ------------------------------------------------------------------ *)
(** ** [DeepSeekUsage] *)

Record DeepSeekUsage : Type := mk_DeepSeekUsage {
  completion_tokens : Z;
  prompt_tokens : Z;
  prompt_cache_hit_tokens : Z;
  prompt_cache_miss_tokens : Z;
  total_tokens : Z
}.

Definition DeepSeekUsage_new : DeepSeekUsage := mk_DeepSeekUsage 0 0 0 0 0.

(** [impl Add for DeepSeekUsage]: field-wise [i64] addition. *)
Definition usage_add (a b : DeepSeekUsage) : DeepSeekUsage :=
  mk_DeepSeekUsage
    (i64_add (completion_tokens a) (completion_tokens b))
    (i64_add (prompt_tokens a) (prompt_tokens b))
    (i64_add (prompt_cache_hit_tokens a) (prompt_cache_hit_tokens b))
    (i64_add (prompt_cache_miss_tokens a) (prompt_cache_miss_tokens b))
    (i64_add (total_tokens a) (total_tokens b)).

(** Every counter is an [i64]. *)
Definition usage_wf (u : DeepSeekUsage) : Prop :=
  in_i64 (completion_tokens u) /\ in_i64 (prompt_tokens u) /\
  in_i64 (prompt_cache_hit_tokens u) /\ in_i64 (prompt_cache_miss_tokens u) /\
  in_i64 (total_tokens u).

(* ------------------------------------------------------------------ *)
(** ** [DeepSeekClient] *)

Definition DEEPSEEK_API_URL : string := "https://api.deepseek.com/chat/completions".

Inductive ResponseFormat : Type := Text | Json.

Record StreamOption : Type := mk_StreamOption { include_usage : bool }.

Inductive DeepSeekModel : Type := DeepseekChat | DeepseekReasoner.

(** [impl Display for DeepSeekModel] *)
Definition DeepSeekModel_to_string (m : DeepSeekModel) : string :=
  match m with
  | DeepseekChat => "deepseek-chat"
  | DeepseekReasoner => "deepseek-reasoner"
  end.

(** [impl Display for ResponseFormat] *)
Definition ResponseFormat_to_string (f : ResponseFormat) : string :=
  match f with Text => "text" | Json => "json" end.

Record DeepSeekClient : Type := mk_DeepSeekClient {
  url : string;
  api_key : option string;
  model : DeepSeekModel;
  frequency_panalty : option f64;
  max_tokens : option Z;
  presence_penalty : option f64;
  response_format : option ResponseFormat;
  stream : option bool;
  stream_option : option StreamOption;
  temperature : option f64;
  top_p : option f64;
  logprobs : bool;
  top_logprobs : option Z;
  total_usage : DeepSeekUsage;
  last_usage : DeepSeekUsage
}.

Definition DeepSeekClient_new (u : string) (m : DeepSeekModel) : DeepSeekClient :=
  mk_DeepSeekClient u None m None None None None None None None None false None
    DeepSeekUsage_new DeepSeekUsage_new.

(** The assignments [self.last_usage = ..; self.total_usage = ..]. *)
Definition set_usages (c : DeepSeekClient) (total last : DeepSeekUsage)
  : DeepSeekClient :=
  mk_DeepSeekClient (url c) (api_key c) (model c) (frequency_panalty c)
    (max_tokens c) (presence_penalty c) (response_format c) (stream c)
    (stream_option c) (temperature c) (top_p c) (logprobs c) (top_logprobs c)
    total last.

(** The builder [api_key_from_env] / [api_key_from_file] on success. *)
Definition with_api_key (c : DeepSeekClient) (k : string) : DeepSeekClient :=
  mk_DeepSeekClient (url c) (Some k) (model c) (frequency_panalty c)
    (max_tokens c) (presence_penalty c) (response_format c) (stream c)
    (stream_option c) (temperature c) (top_p c) (logprobs c) (top_logprobs c)
    (total_usage c) (last_usage c).

(** The builder [frequency_panalty]. *)
Definition with_frequency_panalty (c : DeepSeekClient) (x : option f64)
  : DeepSeekClient :=
  mk_DeepSeekClient (url c) (api_key c) (model c) x
    (max_tokens c) (presence_penalty c) (response_format c) (stream c)
    (stream_option c) (temperature c) (top_p c) (logprobs c) (top_logprobs c)
    (total_usage c) (last_usage c).

Definition default_frequency_panalty : f64 := F64 (Qmake 0 1).
Definition default_max_tokens : Z := 4096.
Definition default_presence_penalty : f64 := F64 (Qmake 0 1).
Definition default_response_format : ResponseFormat := Text.
Definition default_stream : bool := false.
Definition default_temperature : f64 := F64 (Qmake 1 1).
Definition default_top_p : f64 := F64 (Qmake 1 1).

Definition f64_const (z : Z) : f64 := F64 (Qmake z 1).

(** [if x < lo || x > hi { return false }] on an optional [f64]. *)
Definition check_f64_range (o : option f64) (lo hi : f64) : bool :=
  match o with
  | Some x => if f64_lt x lo || f64_gt x hi then false else true
  | None => true
  end.

Definition check_frequency_panalty (c : DeepSeekClient) : bool :=
  check_f64_range (frequency_panalty c) (f64_const (-2)) (f64_const 2).

Definition check_max_tokens (c : DeepSeekClient) : bool :=
  match max_tokens c with
  | Some m => if Z.ltb m 1 || Z.gtb m 8192 then false else true
  | None => true
  end.

Definition check_presence_penalty (c : DeepSeekClient) : bool :=
  check_f64_range (presence_penalty c) (f64_const (-2)) (f64_const 2).

Definition check_stream_option (c : DeepSeekClient) : bool :=
  match stream_option c with None => true | Some _ => false end
  || match stream c with Some s => s | None => default_stream end.

Definition check_temperature (c : DeepSeekClient) : bool :=
  check_f64_range (temperature c) (f64_const 0) (f64_const 2).

Definition check_top_p (c : DeepSeekClient) : bool :=
  check_f64_range (top_p c) (f64_const 0) (f64_const 1).

Definition check_top_logprobs (c : DeepSeekClient) : bool :=
  logprobs c || match top_logprobs c with None => true | Some _ => false end.

Definition check_params (c : DeepSeekClient) : bool :=
  check_frequency_panalty c
  && check_max_tokens c
  && check_presence_penalty c
  && check_stream_option c
  && check_temperature c
  && check_top_p c
  && check_top_logprobs c
  && match api_key c with Some _ => true | None => false end.

(* ------------------------------------------------------------------ *)
(** ** Serialization *)

Record Chat : Type := Chat_new {
  chat_role : string;
  chat_content : string
}.

Definition chats_to_json (chats : list Chat) : json :=
  JArray (map (fun ch => JObject [("content", JString (chat_content ch));
                                  ("role", JString (chat_role ch))]) chats).

(** The object built by [into_request_string], which returns its [dump]. *)
Definition into_request_json (c : DeepSeekClient) (msg : json) : json :=
  JObject [
    ("messages", msg);
    ("model", JString (DeepSeekModel_to_string (model c)));
    ("frequency_panalty", json_of_f64
       (match frequency_panalty c with Some x => x | None => default_frequency_panalty end));
    ("max_tokens", json_of_i32
       (match max_tokens c with Some m => m | None => default_max_tokens end));
    ("presence_penalty", json_of_f64
       (match presence_penalty c with Some x => x | None => default_presence_penalty end));
    ("response_format", JObject [("type", JString (ResponseFormat_to_string
       (match response_format c with Some f => f | None => default_response_format end)))]);
    ("stop", JNull);
    ("stream", JBool (match stream c with Some s => s | None => default_stream end));
    ("stream_options", match stream_option c with
                       | Some so => JObject [("include_usage", JBool (include_usage so))]
                       | None => JNull
                       end);
    ("temperature", json_of_f64
       (match temperature c with Some x => x | None => default_temperature end));
    ("top_p", json_of_f64
       (match top_p c with Some x => x | None => default_top_p end));
    ("tools", JNull);
    ("tool_choice", JString "none");
    ("logprobs", JBool (logprobs c));
    ("top_logprobs", json_of_opt_i32 (top_logprobs c))
  ].

Definition into_request_string (env : Env) (c : DeepSeekClient) (msg : json) : string :=
  dump env (into_request_json c msg).

(* ------------------------------------------------------------------ *)
(** ** The request/response cycle

    A call returns the client after the call, the HTTP requests it issued
    (in order) and its result. *)

Definition bearer (api_key : string) : string := "Bearer " ++ api_key.

(** The request [send_request_raw] issues: [client.post(DEEPSEEK_API_URL)]
    with its two headers and the body. *)
Definition raw_request (request : json) (api_key : string) : http_request :=
  {| req_url := DEEPSEEK_API_URL;
     req_headers := [("Content-Type", "application/json");
                     ("Authorization", bearer api_key)];
     req_body := request |}.

Definition is_success (status : Z) : bool := Z.leb 200 status && Z.ltb status 300.

Definition send_request_raw (env : Env) (request : json) (api_key : string)
  : list http_request * result http_response DeepSeekError :=
  let req := raw_request request api_key in
  ([req],
   match post env req with
   | None => Err (mk_DeepSeekError RequestError "Failed to send request.")
   | Some resp =>
       if is_success (resp_status resp) then Ok resp
       else Err (mk_DeepSeekError RequestError
              ("Request failed with status: " ++ show_status env (resp_status resp)
               ++ ", " ++
               match resp_text resp with
               | inl t =>
                   match parse env t with
                   | inl r => json_to_string env (index_key (index_key r "error") "message")
                   | inr _ => "Failed to parse error message"
                   end
               | inr _ => "Failed to read error message"
               end))
   end).

Definition usage_field (usage : json) (k msg : string) : result Z DeepSeekError :=
  match as_i64 (index_key usage k) with
  | Some v => Ok v
  | None => Err (mk_DeepSeekError ResponseError msg)
  end.

(** The struct literal assigned to [self.last_usage]; its fields are
    evaluated in order and the first [?] that fails returns. *)
Definition parse_usage (usage : json) : result DeepSeekUsage DeepSeekError :=
  match usage_field usage "completion_tokens"
          "The response does not contain completion tokens." with
  | Err e => Err e
  | Ok ct =>
  match usage_field usage "prompt_tokens"
          "The response does not contain prompt tokens." with
  | Err e => Err e
  | Ok pt =>
  match usage_field usage "prompt_cache_hit_tokens"
          "The response does not contain prompt cache hit tokens." with
  | Err e => Err e
  | Ok ht =>
  match usage_field usage "prompt_cache_miss_tokens"
          "The response does not contain prompt cache miss tokens." with
  | Err e => Err e
  | Ok mt =>
  match usage_field usage "total_tokens"
          "The response does not contain total tokens." with
  | Err e => Err e
  | Ok tot => Ok (mk_DeepSeekUsage ct pt ht mt tot)
  end end end end end.

Definition response_content (r : json) : json :=
  index_key (index_key (index_nth (index_key r "choices") 0) "message") "content".

(** Everything after the response text is parsed: the checks of the
    content and of the usage, and the update of the counters. *)
Definition handle_response (c : DeepSeekClient) (response_text : json)
  : DeepSeekClient * result json DeepSeekError :=
  if is_null (response_content response_text) then
    (c, Err (mk_DeepSeekError ResponseError "The response format is not valid."))
  else if is_empty (response_content response_text) then
    (c, Err (mk_DeepSeekError ResponseError "The response is empty."))
  else
    let usage := index_key response_text "usage" in
    if is_null usage then
      (c, Err (mk_DeepSeekError ResponseError
                 "The response does not contain usage statistics."))
    else if is_empty usage then
      (c, Err (mk_DeepSeekError ResponseError "The usage statistics is empty."))
    else
      match parse_usage usage with
      | Err e => (c, Err e)
      | Ok u => (set_usages c (usage_add (total_usage c) u) u, Ok response_text)
      end.

Definition send_request (env : Env) (c : DeepSeekClient) (chats : list Chat)
  : DeepSeekClient * list http_request * result json DeepSeekError :=
  if negb (check_params c) then
    (c, [], Err (mk_DeepSeekError RequestParamError "The parameters are not valid."))
  else
    let request := into_request_json c (chats_to_json chats) in
    (* [unwrap]: [check_params] has checked the key *)
    let key := match api_key c with Some k => k | None => "" end in
    let '(sent, raw) := send_request_raw env request key in
    match raw with
    | Err e => (c, sent, Err e)
    | Ok response =>
        match resp_text response with
        | inr e => (c, sent, Err (mk_DeepSeekError RequestError
                                   ("Failed to read response text. " ++ e)))
        | inl t =>
            match parse env t with
            | inr e => (c, sent, Err (mk_DeepSeekError RequestError
                                       ("Failed to parse response text. " ++ e)))
            | inl response_text =>
                let '(c', r) := handle_response c response_text in (c', sent, r)
            end
        end
    end.

(* ------------------------------------------------------------------ *)
(** ** [AINode] ([src/worknode/ai_node.rs]) *)

Inductive AIService : Type :=
| DeepSeek (client : DeepSeekClient).

Record AINode : Type := mk_AINode {
  service : AIService;
  role : option string;
  histroy : list Chat;
  prompt_prefix : string;
  prompt_suffix : string;
  input : string
}.

Definition AINode_new (s : AIService) : AINode := mk_AINode s None [] "" "" "".

Definition set_fields (n : AINode) (s : AIService) (r : option string) (h : list Chat)
  : AINode :=
  mk_AINode s r h (prompt_prefix n) (prompt_suffix n) (input n).

Definition newline : string := String (ascii_of_nat 10) EmptyString.

(** A Rust panic is modelled by [None]. *)
Definition AINode_role (n : AINode) (r : option string) : option AINode :=
  let original_role_is_none := match role n with None => true | Some _ => false end in
  match r with
  | None => Some (set_fields n (service n) r (histroy n))
  | Some x =>
      if original_role_is_none then
        (* [histroy.insert(0, ..)] *)
        Some (set_fields n (service n) r (Chat_new "system" x :: histroy n))
      else
        (* [histroy[0] = ..]: panics on an empty vector *)
        match histroy n with
        | [] => None
        | _ :: rest => Some (set_fields n (service n) r (Chat_new "system" x :: rest))
        end
  end.

Definition AINode_set_role (n : AINode) (r : option string) : AINode :=
  set_fields n (service n) r (histroy n).

(** The builder [history]. *)
Definition AINode_history (n : AINode) (h : list Chat) : AINode :=
  set_fields n (service n) (role n) h.

Definition AINode_execute (env : Env) (n : AINode)
  : AINode * list http_request * result string AINodeError :=
  match service n with
  | DeepSeek client =>
      let prompt := prompt_prefix n ++ newline ++ input n ++ newline ++ prompt_suffix n in
      let h := (histroy n ++ [Chat_new "user" prompt])%list in
      let '(client', sent, r) := send_request env client h in
      match r with
      | Err e =>
          (set_fields n (DeepSeek client') (role n) h, sent,
           Err (mk_AINodeError (DeepSeekErr e) "Failed to send request to DeepSeek"))
      | Ok response =>
          let response_text := json_to_string env (response_content response) in
          (set_fields n (DeepSeek client') (role n)
             (h ++ [Chat_new "assistant" response_text])%list,
           sent, Ok response_text)
      end
  end.

(* ------------------------------------------------------------------ *)
(** ** [Worknodecore] ([src/worknode.rs]) *)

Inductive Worknodecore : Type :=
| Start
| End
| AINodeCore (node : AINode)
| Local
| User.

(** [Worknodecore::excute]. The call [node.execute(input)] passes [input]
    to [AINode::execute], which takes no argument besides the node; the
    node's own [input] field is what it uses. *)
Definition Worknodecore_excute (env : Env) (w : Worknodecore) (inp : string)
  : Worknodecore * list http_request * result string PilotError :=
  match w with
  | AINodeCore node =>
      let '(node', sent, r) := AINode_execute env node in
      (AINodeCore node', sent,
       match r with
       | Ok s => Ok s
       | Err e => Err (mk_PilotError (AINodeErr e) "AI node failed to execute")
       end)
  | _ => (w, [], Ok "")
  end.

(* ------------------------------------------------------------------ *)
(** ** API keys ([api_key_from_env], [api_key_from_file]) *)

(** [getenv] is [std::env::var] ([None] when it fails). *)
Definition api_key_from_env (getenv : string -> option string) (c : DeepSeekClient)
  : result DeepSeekClient DeepSeekError :=
  match getenv "API_KEY" with
  | Some k => Ok (with_api_key c k)
  | None => Err (mk_DeepSeekError ApiKeyError "Environment variable API_KEY not found.")
  end.

(** [read_to_string] is [std::fs::read_to_string] ([None] when it fails). *)
Definition api_key_from_file (read_to_string : string -> option string)
  (c : DeepSeekClient) (file : string) : result DeepSeekClient DeepSeekError :=
  match read_to_string file with
  | Some k => Ok (with_api_key c k)
  | None => Err (mk_DeepSeekError ApiKeyError "Can't read the api key file.")
  end.

(* ------------------------------------------------------------------ *)
(** ** [Display] of the three error layers

    The [Display] of [DeepSeekError] matches the three declared kinds; the
    undeclared [ResponseError] has no arm there, which [None] stands for. *)

Definition DeepSeekError_fmt (e : DeepSeekError) : option string :=
  match ds_error_type e with
  | RequestParamError => Some ("RequestParamError: " ++ ds_message e)
  | RequestError => Some ("RequestError: " ++ ds_message e)
  | ApiKeyError => Some ("ApiKeyError: " ++ ds_message e)
  | ResponseError => None
  end.

(** [write!(f, "DeepSeekError: {}\n{}", self.message, e)] *)
Definition AINodeError_fmt (e : AINodeError) : option string :=
  match ai_error_type e with
  | DeepSeekErr d =>
      option_map (fun s => "DeepSeekError: " ++ ai_message e ++ newline ++ s)
        (DeepSeekError_fmt d)
  end.

(** [write!(f, "AINodeError: {}\n{}", self.message, e)] *)
Definition PilotError_fmt (e : PilotError) : option string :=
  match pilot_error_type e with
  | AINodeErr a =>
      option_map (fun s => "AINodeError: " ++ pilot_message e ++ newline ++ s)
        (AINodeError_fmt a)
  end.

(* ------------------------------------------------------------------ *)
(** ** [Worknode] *)

(** [uid] is the 128-bit [Uuid] drawn by [Uuid::new_v4] in [Worknode::new];
    the caller supplies it here. *)
Record Worknode : Type := Worknode_new {
  uid : Z;
  node : Worknodecore
}.

Definition Worknode_excute (env : Env) (w : Worknode) (inp : string)
  : Worknode * list http_request * result string PilotError :=
  let '(core', sent, r) := Worknodecore_excute env (node w) inp in
  (Worknode_new (uid w) core', sent, r).

Definition Worknode_set_node (w : Worknode) (core : Worknodecore) : Worknode :=
  Worknode_new (uid w) core.

(** The mutating operations of [Worknode]. *)
Inductive worknode_op : Type :=
| OpExcute (inp : string)
| OpSetNode (core : Worknodecore).

Fixpoint run_worknode_ops (env : Env) (w : Worknode) (ops : list worknode_op)
  : Worknode :=
  match ops with
  | [] => w
  | OpExcute inp :: ops' =>
      let '(w', _, _) := Worknode_excute env w inp in run_worknode_ops env w' ops'
  | OpSetNode core :: ops' => run_worknode_ops env (Worknode_set_node w core) ops'
  end.

(* ------------------------------------------------------------------ *)
(** ** Inputs used by the concrete checks below *)

(** A transport where every request fails to be sent. *)
Definition offline_env : Env :=
  {| post := fun _ => None; parse := fun _ => inr "no body";
     dump := fun _ => ""; show_status := fun _ => "" |}.

Definition sample_history : list Chat :=
  [Chat_new "system" "You are a helpful assistant"; Chat_new "user" "Hi"].

(** The claim's reading of the validation rules. *)
Definition opt_in_range (o : option f64) (lo hi : Z) : Prop :=
  match o with
  | None => True
  | Some x => exists q, x = F64 q /\ Qle (inject_Z lo) q /\ Qle q (inject_Z hi)
  end.

Definition params_valid_spec (c : DeepSeekClient) : Prop :=
  opt_in_range (frequency_panalty c) (-2) 2 /\
  opt_in_range (presence_penalty c) (-2) 2 /\
  (match max_tokens c with None => True | Some m => 1 <= m <= 8192 end) /\
  opt_in_range (temperature c) 0 2 /\
  opt_in_range (top_p c) 0 1 /\
  (stream_option c <> None ->
     match stream c with Some s => s | None => default_stream end = true) /\
  (top_logprobs c <> None -> logprobs c = true) /\
  api_key c <> None.

Definition not_nan (o : option f64) : Prop := o <> Some F64NaN.

(** The invariant the spec states for the [role] field. *)
Definition role_inv (n : AINode) : Prop :=
  match role n with
  | None => True
  | Some r => nth_error (histroy n) 0 = Some (Chat_new "system" r)
  end.

(* ================================================================== *)
(** * Properties *)

(** ** Arithmetic of [i64] *)

Lemma wrap_i64_range (z : Z) : in_i64 (wrap_i64 z).
Proof.
  unfold in_i64, wrap_i64, i64_min, i64_max.
  pose proof (Z.mod_pos_bound (z + 2 ^ 63) (2 ^ 64)) as H.
  assert (2 ^ 64 = 2 * 2 ^ 63) as E by reflexivity.
  lia.
Qed.

Lemma wrap_i64_small (z : Z) : in_i64 z -> wrap_i64 z = z.
Proof.
  unfold in_i64, wrap_i64, i64_min, i64_max. intros H.
  rewrite Z.mod_small; [lia|].
  assert (2 ^ 64 = 2 * 2 ^ 63) as E by reflexivity. lia.
Qed.

Lemma wrap_i64_add_r (x y : Z) : wrap_i64 (x + wrap_i64 y) = wrap_i64 (x + y).
Proof.
  unfold wrap_i64. f_equal.
  replace (x + ((y + 2 ^ 63) mod 2 ^ 64 - 2 ^ 63) + 2 ^ 63)
    with (x + (y + 2 ^ 63) mod 2 ^ 64) by lia.
  rewrite Z.add_mod_idemp_r by lia. f_equal. lia.
Qed.

Lemma i64_add_assoc (a b c : Z) : i64_add (i64_add a b) c = i64_add a (i64_add b c).
Proof.
  unfold i64_add.
  rewrite (Z.add_comm (wrap_i64 (a + b)) c), !wrap_i64_add_r.
  f_equal. lia.
Qed.

Lemma i64_add_comm (a b : Z) : i64_add a b = i64_add b a.
Proof. unfold i64_add. now rewrite Z.add_comm. Qed.

Lemma i64_add_0_l (a : Z) : in_i64 a -> i64_add 0 a = a.
Proof. intros H. unfold i64_add. rewrite Z.add_0_l. now apply wrap_i64_small. Qed.

Lemma i64_add_0_r (a : Z) : in_i64 a -> i64_add a 0 = a.
Proof. intros H. rewrite i64_add_comm. now apply i64_add_0_l. Qed.

(** ** C5 *)

(** C5. [DeepSeekUsage] under [Add] is a commutative monoid: the sum is
    field-wise on the five counters and stays a valid usage, it is
    associative and commutative, and [DeepSeekUsage::new] (all zero) is a
    two-sided identity of every usage whose counters are [i64] values. *)
Theorem usage_commutative_monoid :
  (forall a b,
     completion_tokens (usage_add a b) = i64_add (completion_tokens a) (completion_tokens b) /\
     prompt_tokens (usage_add a b) = i64_add (prompt_tokens a) (prompt_tokens b) /\
     prompt_cache_hit_tokens (usage_add a b)
       = i64_add (prompt_cache_hit_tokens a) (prompt_cache_hit_tokens b) /\
     prompt_cache_miss_tokens (usage_add a b)
       = i64_add (prompt_cache_miss_tokens a) (prompt_cache_miss_tokens b) /\
     total_tokens (usage_add a b) = i64_add (total_tokens a) (total_tokens b) /\
     usage_wf (usage_add a b)) /\
  (forall a b c, usage_add (usage_add a b) c = usage_add a (usage_add b c)) /\
  (forall a b, usage_add a b = usage_add b a) /\
  (forall u, usage_wf u ->
     usage_add DeepSeekUsage_new u = u /\ usage_add u DeepSeekUsage_new = u).
Proof.
  split; [|split; [|split]].
  - intros a b. unfold usage_wf, i64_add.
    repeat split; apply wrap_i64_range.
  - intros [] [] []. unfold usage_add. simpl. now rewrite !i64_add_assoc.
  - intros [] []. unfold usage_add. simpl. f_equal; apply i64_add_comm.
  - intros [] (H1 & H2 & H3 & H4 & H5). simpl in *. unfold usage_add, DeepSeekUsage_new.
    simpl. rewrite !i64_add_0_l, !i64_add_0_r by assumption. split; reflexivity.
Qed.

(** ** Validation *)

Lemma check_f64_range_spec (o : option f64) (lo hi : Z) :
  not_nan o ->
  check_f64_range o (f64_const lo) (f64_const hi) = true <-> opt_in_range o lo hi.
Proof.
  unfold not_nan, check_f64_range, opt_in_range, f64_gt, f64_const.
  intros Hn. destruct o as [[q| [|] |]|]; simpl.
  - unfold Q_ltb, Qle, inject_Z; simpl.
    destruct (Z.ltb_spec (Qnum q * 1) (lo * Z.pos (Qden q))),
             (Z.ltb_spec (hi * Z.pos (Qden q)) (Qnum q * 1)); simpl.
    + split; [discriminate | intros (q' & E & H1 & H2); injection E as <-; simpl in *; lia].
    + split; [discriminate | intros (q' & E & H1 & H2); injection E as <-; simpl in *; lia].
    + split; [discriminate | intros (q' & E & H1 & H2); injection E as <-; simpl in *; lia].
    + split; [intros _; exists q; split; [reflexivity|]; unfold Qle; simpl; lia | reflexivity].
  - split; [discriminate | intros (q' & E & _); discriminate].
  - split; [discriminate | intros (q' & E & _); discriminate].
  - congruence.
  - split; auto.
Qed.

Lemma check_max_tokens_spec (c : DeepSeekClient) :
  check_max_tokens c = true <->
  match max_tokens c with None => True | Some m => 1 <= m <= 8192 end.
Proof.
  unfold check_max_tokens. destruct (max_tokens c) as [m|]; [|tauto].
  destruct (Z.ltb_spec m 1), (Z.gtb_spec m 8192); simpl;
    split; intros; try discriminate; try lia; reflexivity.
Qed.

Lemma check_stream_option_spec (c : DeepSeekClient) :
  check_stream_option c = true <->
  (stream_option c <> None ->
     match stream c with Some s => s | None => default_stream end = true).
Proof.
  unfold check_stream_option.
  destruct (stream_option c); simpl; [|split; [congruence | reflexivity]].
  split; [auto | intros H; apply H; discriminate].
Qed.

Lemma check_top_logprobs_spec (c : DeepSeekClient) :
  check_top_logprobs c = true <-> (top_logprobs c <> None -> logprobs c = true).
Proof.
  unfold check_top_logprobs.
  destruct (logprobs c), (top_logprobs c); simpl; split; auto; try congruence.
  intros H. apply H. discriminate.
Qed.

(** Without NaN among the floating-point options, [check_params] is
    exactly the conjunction of the documented field checks. *)
Lemma check_params_spec_not_nan (c : DeepSeekClient) :
  not_nan (frequency_panalty c) -> not_nan (presence_penalty c) ->
  not_nan (temperature c) -> not_nan (top_p c) ->
  check_params c = true <-> params_valid_spec c.
Proof.
  intros H1 H2 H3 H4. unfold check_params, params_valid_spec.
  rewrite !andb_true_iff.
  unfold check_frequency_panalty, check_presence_penalty, check_temperature, check_top_p.
  rewrite (check_f64_range_spec _ _ _ H1), (check_f64_range_spec _ _ _ H2),
          (check_f64_range_spec _ _ _ H3), (check_f64_range_spec _ _ _ H4),
          check_max_tokens_spec, check_stream_option_spec, check_top_logprobs_spec.
  assert (match api_key c with Some _ => true | None => false end = true
          <-> api_key c <> None) as Hk
    by (destruct (api_key c); split; congruence).
  rewrite Hk. tauto.
Qed.

(** A client that carries an API key and a NaN frequency penalty. *)
Definition nan_penalty_client : DeepSeekClient :=
  with_frequency_panalty
    (with_api_key (DeepSeekClient_new DEEPSEEK_API_URL DeepseekChat) "sk-test")
    (Some F64NaN).

(** C3 (code_bug). [check_params] accepts a client whose frequency penalty is
    NaN, which is not in [-2.0, 2.0]: [NaN < -2.0 || NaN > 2.0] is false. *)
Theorem check_params_accepts_nan_penalty :
  check_params nan_penalty_client = true /\ ~ params_valid_spec nan_penalty_client.
Proof.
  split; [reflexivity|].
  intros (H & _). destruct H as (q & E & _). discriminate.
Qed.

(** C4. When [check_params] fails, [send_request] returns a
    [RequestParamError], issues no HTTP request and leaves the client,
    its usage counters included, as it was. *)
Theorem send_request_param_error (env : Env) (c : DeepSeekClient) (chats : list Chat) :
  check_params c = false ->
  send_request env c chats
  = (c, [], Err (mk_DeepSeekError RequestParamError "The parameters are not valid.")).
Proof. intros H. unfold send_request. now rewrite H. Qed.

Lemma send_request_param_error_witness :
  check_params (DeepSeekClient_new DEEPSEEK_API_URL DeepseekChat) = false /\
  send_request offline_env (DeepSeekClient_new DEEPSEEK_API_URL DeepseekChat) sample_history
  = (DeepSeekClient_new DEEPSEEK_API_URL DeepseekChat, [],
     Err (mk_DeepSeekError RequestParamError "The parameters are not valid.")).
Proof.
  split; [reflexivity|].
  apply send_request_param_error. reflexivity.
Defined.

(** ** Serialization *)

(** C1 (code_bug). For any URL, the request object of a fresh
    [DeepseekChat] client over the sample history carries every default,
    but the frequency penalty sits under the key ["frequency_panalty"]:
    the key ["frequency_penalty"] is absent. *)
Theorem into_request_default_client (U : string) :
  into_request_json (DeepSeekClient_new U DeepseekChat) (chats_to_json sample_history)
  = JObject [
      ("messages", JArray [
         JObject [("content", JString "You are a helpful assistant");
                  ("role", JString "system")];
         JObject [("content", JString "Hi"); ("role", JString "user")]]);
      ("model", JString "deepseek-chat");
      ("frequency_panalty", JNumber (F64 (Qmake 0 1)));
      ("max_tokens", JNumber (F64 (Qmake 4096 1)));
      ("presence_penalty", JNumber (F64 (Qmake 0 1)));
      ("response_format", JObject [("type", JString "text")]);
      ("stop", JNull);
      ("stream", JBool false);
      ("stream_options", JNull);
      ("temperature", JNumber (F64 (Qmake 1 1)));
      ("top_p", JNumber (F64 (Qmake 1 1)));
      ("tools", JNull);
      ("tool_choice", JString "none");
      ("logprobs", JBool false);
      ("top_logprobs", JNull)]
  /\ index_key (into_request_json (DeepSeekClient_new U DeepseekChat)
                  (chats_to_json sample_history)) "frequency_penalty" = JNull.
Proof. split; reflexivity. Qed.

(** ** The HTTP request *)

Lemma send_request_raw_sent (env : Env) (request : json) (k : string) :
  fst (send_request_raw env request k) = [raw_request request k].
Proof. reflexivity. Qed.

(** Past validation, [send_request] issues exactly one request, the one
    [send_request_raw] builds from the body and the API key. *)
Lemma send_request_sent (env : Env) (c : DeepSeekClient) (chats : list Chat) :
  check_params c = true ->
  exists k, api_key c = Some k /\
    snd (fst (send_request env c chats))
    = [raw_request (into_request_json c (chats_to_json chats)) k].
Proof.
  intros H. unfold send_request. rewrite H. cbn [negb].
  assert (exists k, api_key c = Some k) as [k Hk].
  { unfold check_params in H. destruct (api_key c) as [k|].
    - now exists k.
    - rewrite !andb_false_r in H. discriminate. }
  exists k. split; [assumption|]. rewrite Hk.
  pose proof (send_request_raw_sent env (into_request_json c (chats_to_json chats)) k) as E.
  destruct (send_request_raw env _ _) as [sent raw]. simpl in E. subst sent.
  destruct raw as [response|e]; [|reflexivity].
  destruct (resp_text response) as [t|e]; [|reflexivity].
  destruct (parse env t) as [r|e]; [|reflexivity].
  destruct (handle_response c r). reflexivity.
Qed.

Definition configured_url_client : DeepSeekClient :=
  with_api_key (DeepSeekClient_new "https://api.deepseek.ai/v1/chat/completions"
                  DeepseekChat) "sk-test".

(** C2 (code_bug). A valid client configured with another URL still
    posts to [DEEPSEEK_API_URL]; the headers are the documented ones. *)
Theorem send_request_ignores_configured_url (env : Env) (chats : list Chat) :
  exists r,
    snd (fst (send_request env configured_url_client chats)) = [r] /\
    req_url r = DEEPSEEK_API_URL /\
    req_url r <> url configured_url_client /\
    req_headers r = [("Content-Type", "application/json");
                     ("Authorization", "Bearer sk-test")].
Proof.
  destruct (send_request_sent env configured_url_client chats eq_refl)
    as (k & Hk & E).
  injection Hk as <-.
  eexists. split; [exact E|]. split; [reflexivity|]. split; [|reflexivity].
  simpl. discriminate.
Qed.

(** ** Usage bookkeeping *)

Definition usage_fields : list string :=
  ["completion_tokens"; "prompt_tokens"; "prompt_cache_hit_tokens";
   "prompt_cache_miss_tokens"; "total_tokens"].

(** A [usage] value [send_request] must reject: absent, empty, or without
    an integer under one of the five counter keys. *)
Definition usage_bad (usage : json) : Prop :=
  is_null usage = true \/ is_empty usage = true \/
  exists f, In f usage_fields /\ as_i64 (index_key usage f) = None.

Lemma parse_usage_err (usage : json) (e : DeepSeekError) :
  parse_usage usage = Err e -> ds_error_type e = ResponseError.
Proof.
  unfold parse_usage, usage_field.
  repeat match goal with
         | |- context [match as_i64 ?j with _ => _ end] => destruct (as_i64 j)
         end; intros H; try discriminate; injection H as <-; reflexivity.
Qed.

Lemma parse_usage_ok (usage : json) (u : DeepSeekUsage) :
  parse_usage usage = Ok u ->
  forall f, In f usage_fields -> exists v, as_i64 (index_key usage f) = Some v.
Proof.
  unfold parse_usage, usage_field.
  repeat match goal with
         | |- context [match as_i64 (index_key _ ?k) with _ => _ end] =>
             let E := fresh "E" in destruct (as_i64 (index_key usage k)) eqn:E
         end; intros H; try discriminate.
  intros f Hf. simpl in Hf.
  repeat (destruct Hf as [<-|Hf]; [eexists; eassumption|]). contradiction.
Qed.

Lemma handle_response_bad_usage (c : DeepSeekClient) (r : json) :
  usage_bad (index_key r "usage") ->
  exists e, handle_response c r = (c, Err e) /\ ds_error_type e = ResponseError.
Proof.
  intros Hbad. unfold handle_response.
  destruct (is_null (response_content r)); [eexists; split; reflexivity|].
  destruct (is_empty (response_content r)); [eexists; split; reflexivity|].
  destruct (is_null (index_key r "usage")) eqn:N; [eexists; split; reflexivity|].
  destruct (is_empty (index_key r "usage")) eqn:M; [eexists; split; reflexivity|].
  destruct (parse_usage (index_key r "usage")) as [u|e] eqn:P.
  - exfalso. destruct Hbad as [H|[H|(f & Hf & H)]]; try congruence.
    destruct (parse_usage_ok _ _ P f Hf) as [v Hv]. congruence.
  - exists e. split; [reflexivity|]. now apply (parse_usage_err (index_key r "usage")).
Qed.

Lemma handle_response_ok (c c' : DeepSeekClient) (r j : json) :
  handle_response c r = (c', Ok j) ->
  j = r /\ exists u, parse_usage (index_key r "usage") = Ok u /\
                     c' = set_usages c (usage_add (total_usage c) u) u.
Proof.
  unfold handle_response.
  destruct (is_null (response_content r)); [discriminate|].
  destruct (is_empty (response_content r)); [discriminate|].
  destruct (is_null (index_key r "usage")); [discriminate|].
  destruct (is_empty (index_key r "usage")); [discriminate|].
  destruct (parse_usage (index_key r "usage")) as [u|e]; [|discriminate].
  intros H. injection H as <- <-. split; [reflexivity|]. now exists u.
Qed.

Lemma send_request_ok (env : Env) (c c' : DeepSeekClient) (chats : list Chat)
  (sent : list http_request) (j : json) :
  send_request env c chats = (c', sent, Ok j) ->
  exists u, parse_usage (index_key j "usage") = Ok u /\
            last_usage c' = u /\ total_usage c' = usage_add (total_usage c) u.
Proof.
  unfold send_request.
  destruct (negb (check_params c)); [discriminate|].
  destruct (send_request_raw env _ _) as [s raw].
  destruct raw as [response|e]; [|discriminate].
  destruct (resp_text response) as [t|e]; [|discriminate].
  destruct (parse env t) as [r|e]; [|discriminate].
  destruct (handle_response c r) as [c1 res] eqn:E.
  intros H. injection H as -> _ ->.
  destruct (handle_response_ok _ _ _ _ E) as (-> & u & P & ->).
  exists u. repeat split; assumption.
Qed.

(** C6. If the call gets past validation and transport and the parsed
    response has a [usage] that is absent, empty or lacks one of the five
    counters, [send_request] fails with a [ResponseError] and returns the
    client unchanged (so [last_usage] and [total_usage] too); a call that
    succeeds sets [last_usage] to the parsed counters and adds them to
    [total_usage]. *)
Theorem send_request_usage (env : Env) (c : DeepSeekClient) (chats : list Chat) :
  (forall k resp t r,
     check_params c = true -> api_key c = Some k ->
     post env (raw_request (into_request_json c (chats_to_json chats)) k) = Some resp ->
     is_success (resp_status resp) = true ->
     resp_text resp = inl t -> parse env t = inl r ->
     usage_bad (index_key r "usage") ->
     exists e,
       send_request env c chats
       = (c, [raw_request (into_request_json c (chats_to_json chats)) k], Err e) /\
       ds_error_type e = ResponseError) /\
  (forall c' sent j,
     send_request env c chats = (c', sent, Ok j) ->
     exists u, parse_usage (index_key j "usage") = Ok u /\
               last_usage c' = u /\ total_usage c' = usage_add (total_usage c) u).
Proof.
  split; [|intros c' sent j; apply send_request_ok].
  intros k resp t r Hc Hk Hp Hs Ht Hr Hbad.
  destruct (handle_response_bad_usage c r Hbad) as (e & He & Ht').
  exists e. split; [|exact Ht'].
  unfold send_request. rewrite Hc, Hk. cbn [negb]. unfold send_request_raw.
  rewrite Hp, Hs, Ht, Hr, He. reflexivity.
Qed.

(** A response with content but without [usage]. *)
Definition no_usage_env : Env :=
  {| post := fun _ => Some {| resp_status := 200; resp_text := inl "{}" |};
     parse := fun _ => inl (JObject [("choices", JArray [JObject [("message",
                              JObject [("content", JString "Hello")])]])]);
     dump := fun _ => ""; show_status := fun _ => "" |}.

Definition keyed_client : DeepSeekClient :=
  with_api_key (DeepSeekClient_new DEEPSEEK_API_URL DeepseekChat) "sk-test".

Lemma send_request_usage_witness :
  exists e,
    send_request no_usage_env keyed_client sample_history
    = (keyed_client,
       [raw_request (into_request_json keyed_client (chats_to_json sample_history))
          "sk-test"], Err e) /\
    ds_error_type e = ResponseError.
Proof.
  apply (proj1 (send_request_usage no_usage_env keyed_client sample_history)
           "sk-test" {| resp_status := 200; resp_text := inl "{}" |} "{}"
           (JObject [("choices", JArray [JObject [("message",
                        JObject [("content", JString "Hello")])]])])).
  - reflexivity.
  - reflexivity.
  - reflexivity.
  - reflexivity.
  - reflexivity.
  - reflexivity.
  - left. reflexivity.
Defined.

(** ** The role of an [AINode] *)

Definition fresh_node : AINode :=
  AINode_new (DeepSeek (DeepSeekClient_new DEEPSEEK_API_URL DeepseekChat)).

(** A node whose role is set (by [set_role]) while its history is empty. *)
Definition role_set_empty_node : AINode := AINode_set_role fresh_node (Some "X").

(** C7 (code_bug). The builder [role] overwrites [history[0]] when a role
    is already set, relying on the system turn being there. After
    [set_role(Some "X")] on a fresh node the role is set while the history
    is empty, and [role(Some "Y")] then indexes an empty vector and panics.
    Along the builder alone the claim holds: from an unset role,
    [role(Some x)] puts the system turn in front and a later
    [role(Some y)] replaces it in place. *)
Theorem AINode_role_panics_after_set_role :
  role role_set_empty_node = Some "X" /\ histroy role_set_empty_node = [] /\
  AINode_role role_set_empty_node (Some "Y") = None /\
  (forall n x y, role n = None ->
     match AINode_role n (Some x) with
     | Some n1 => AINode_role n1 (Some y)
     | None => None
     end
     = Some (set_fields n (service n) (Some y) (Chat_new "system" y :: histroy n))).
Proof.
  split; [reflexivity|]. split; [reflexivity|]. split; [reflexivity|].
  intros n x y H. unfold AINode_role. rewrite H. reflexivity.
Qed.

(** C10. [set_role] changes the role field only: the history and every
    other field are as before. Hence it can break the role invariant
    (a node satisfying it stops satisfying it), which the builder [role]
    preserves. *)
Theorem set_role_leaves_history :
  (forall n r,
     histroy (AINode_set_role n (Some r)) = histroy n /\
     role (AINode_set_role n (Some r)) = Some r /\
     service (AINode_set_role n (Some r)) = service n /\
     prompt_prefix (AINode_set_role n (Some r)) = prompt_prefix n /\
     prompt_suffix (AINode_set_role n (Some r)) = prompt_suffix n /\
     input (AINode_set_role n (Some r)) = input n) /\
  (exists n r, role_inv n /\ ~ role_inv (AINode_set_role n (Some r))) /\
  (forall n r n', role_inv n -> AINode_role n r = Some n' -> role_inv n').
Proof.
  split; [|split].
  - intros n r. repeat split.
  - exists fresh_node, "X". split; [exact I|]. simpl. discriminate.
  - intros n r n' Hinv. unfold AINode_role, role_inv in *.
    destruct r as [x|]; intros H.
    + destruct (role n) as [r0|].
      * destruct (histroy n) as [|h0 rest]; [discriminate|].
        injection H as <-. reflexivity.
      * injection H as <-. reflexivity.
    + injection H as <-. exact I.
Qed.

(** ** One round trip of an [AINode] *)

(** C8. [execute] sends the history extended by the user turn
    [prefix ++ "\n" ++ input ++ "\n" ++ suffix]; on success the history
    gains that turn and then an assistant turn holding the returned text,
    which is the content of the response; on failure the error of
    [send_request] comes back wrapped with "Failed to send request to
    DeepSeek" and the history keeps the user turn only. *)
Theorem AINode_execute_spec (env : Env) (n : AINode) :
  match service n with
  | DeepSeek client =>
      let prompt := prompt_prefix n ++ newline ++ input n ++ newline ++ prompt_suffix n in
      let h := (histroy n ++ [Chat_new "user" prompt])%list in
      let '(n', sent, r) := AINode_execute env n in
      let '(client', sent', r') := send_request env client h in
      sent = sent' /\ service n' = DeepSeek client' /\
      match r, r' with
      | Ok s, Ok j =>
          s = json_to_string env (response_content j) /\
          histroy n' = (h ++ [Chat_new "assistant" s])%list /\
          length (histroy n') = (length (histroy n) + 2)%nat
      | Err e, Err de =>
          e = mk_AINodeError (DeepSeekErr de) "Failed to send request to DeepSeek" /\
          histroy n' = h /\
          length (histroy n') = (length (histroy n) + 1)%nat
      | _, _ => False
      end
  end.
Proof.
  destruct n as [[client] ro h pre suf inp]. simpl.
  unfold AINode_execute. simpl.
  destruct (send_request env client _) as [[client' sent] [j|de]]; simpl;
    repeat split; rewrite ?length_app; simpl; lia.
Qed.

(** ** Dispatch *)

(** C9. [Start], [End], [Local] and [User] return [Ok ""] and change
    nothing; the [AINode] variant returns what the node returns, an error
    wrapped once in a [PilotError] with "AI node failed to execute". *)
Theorem Worknodecore_excute_spec (env : Env) (w : Worknodecore) (inp : string) :
  match w with
  | AINodeCore node =>
      let '(node', sent, r) := AINode_execute env node in
      Worknodecore_excute env w inp
      = (AINodeCore node', sent,
         match r with
         | Ok s => Ok s
         | Err e => Err (mk_PilotError (AINodeErr e) "AI node failed to execute")
         end)
  | _ => Worknodecore_excute env w inp = (w, [], Ok "")
  end.
Proof.
  destruct w as [| |node| |]; try reflexivity.
  simpl. destruct (AINode_execute env node) as [[node' sent] r]. reflexivity.
Qed.

(* ================================================================== *)
(** * Further properties of the code *)

(** ** Validation and the request *)

Lemma check_params_spec_not_nan_witness :
  (not_nan (frequency_panalty keyed_client) /\ not_nan (presence_penalty keyed_client) /\
   not_nan (temperature keyed_client) /\ not_nan (top_p keyed_client)) /\
  (check_params keyed_client = true <-> params_valid_spec keyed_client).
Proof.
  split; [repeat split; discriminate|].
  apply check_params_spec_not_nan; discriminate.
Defined.

Lemma send_request_sent_witness :
  check_params keyed_client = true /\
  exists k, api_key keyed_client = Some k /\
    snd (fst (send_request offline_env keyed_client sample_history))
    = [raw_request (into_request_json keyed_client (chats_to_json sample_history)) k].
Proof.
  split; [reflexivity|]. apply send_request_sent. reflexivity.
Defined.

Lemma handle_response_effect (c : DeepSeekClient) (r : json) :
  let '(c', res) := handle_response c r in
  match res with
  | Err _ => c' = c
  | Ok j => j = r /\ is_null (response_content r) = false /\
            is_empty (response_content r) = false /\
            exists u, parse_usage (index_key r "usage") = Ok u /\
                      c' = set_usages c (usage_add (total_usage c) u) u
  end.
Proof.
  unfold handle_response.
  destruct (is_null (response_content r)) eqn:N1; [reflexivity|].
  destruct (is_empty (response_content r)) eqn:N2; [reflexivity|].
  destruct (is_null (index_key r "usage")); [reflexivity|].
  destruct (is_empty (index_key r "usage")); [reflexivity|].
  destruct (parse_usage (index_key r "usage")) as [u|e]; [|reflexivity].
  repeat split; auto. now exists u.
Qed.

(** A call of [send_request] changes nothing of the client when it fails,
    and on success only its two usage counters: [last_usage] becomes the
    parsed usage and [total_usage] grows by it. *)
Theorem send_request_changes_only_usage (env : Env) (c : DeepSeekClient)
  (chats : list Chat) :
  let '(c', _, r) := send_request env c chats in
  match r with
  | Err _ => c' = c
  | Ok j => exists u, parse_usage (index_key j "usage") = Ok u /\
                      c' = set_usages c (usage_add (total_usage c) u) u
  end.
Proof.
  unfold send_request.
  destruct (negb (check_params c)); [reflexivity|].
  destruct (send_request_raw env _ _) as [s raw].
  destruct raw as [response|e]; [|reflexivity].
  destruct (resp_text response) as [t|e]; [|reflexivity].
  destruct (parse env t) as [r|e]; [|reflexivity].
  pose proof (handle_response_effect c r) as H.
  destruct (handle_response c r) as [c1 [j|e]].
  - destruct H as (-> & _ & _ & u & P & ->). now exists u.
  - exact H.
Qed.

(** A successful [send_request] passed validation, issued one request, and
    returns a response whose [choices[0].message.content] is neither null
    nor empty and whose [usage] parses. *)
Theorem send_request_ok_guarantees (env : Env) (c c' : DeepSeekClient)
  (chats : list Chat) (sent : list http_request) (j : json) :
  send_request env c chats = (c', sent, Ok j) ->
  check_params c = true /\ length sent = 1%nat /\
  is_null (response_content j) = false /\ is_empty (response_content j) = false /\
  exists u, parse_usage (index_key j "usage") = Ok u.
Proof.
  intros H.
  destruct (check_params c) eqn:Hc.
  2:{ unfold send_request in H. rewrite Hc in H. discriminate. }
  destruct (send_request_sent env c chats Hc) as (k & _ & Hs).
  rewrite H in Hs. simpl in Hs. subst sent.
  split; [reflexivity|]. split; [reflexivity|].
  unfold send_request in H. rewrite Hc in H. cbn [negb] in H.
  destruct (send_request_raw env _ _) as [s raw].
  destruct raw as [response|e]; [|discriminate].
  destruct (resp_text response) as [t|e]; [|discriminate].
  destruct (parse env t) as [r|e]; [|discriminate].
  pose proof (handle_response_effect c r) as He.
  destruct (handle_response c r) as [c1 [j'|e]]; [|discriminate].
  injection H as _ _ <-.
  destruct He as (-> & N1 & N2 & u & P & _).
  split; [exact N1|]. split; [exact N2|]. now exists u.
Qed.

Definition ok_body : json :=
  JObject [("choices", JArray [JObject [("message",
                                 JObject [("content", JString "Hello")])]]);
           ("usage", JObject [("completion_tokens", json_of_i32 5);
                              ("prompt_tokens", json_of_i32 11);
                              ("prompt_cache_hit_tokens", json_of_i32 0);
                              ("prompt_cache_miss_tokens", json_of_i32 11);
                              ("total_tokens", json_of_i32 16)])].

(** A server that answers every request with [ok_body]. *)
Definition ok_env : Env :=
  {| post := fun _ => Some {| resp_status := 200; resp_text := inl "ok" |};
     parse := fun _ => inl ok_body;
     dump := fun _ => ""; show_status := fun _ => "" |}.

Lemma send_request_ok_guarantees_witness :
  exists c' sent j,
    send_request ok_env keyed_client sample_history = (c', sent, Ok j) /\
    check_params keyed_client = true /\ length sent = 1%nat /\
    is_null (response_content j) = false /\ is_empty (response_content j) = false /\
    exists u, parse_usage (index_key j "usage") = Ok u.
Proof.
  do 3 eexists. split; [reflexivity|].
  eapply (send_request_ok_guarantees ok_env keyed_client _ sample_history).
  reflexivity.
Defined.

(** When the HTTP client cannot send the request, [send_request] fails with
    [RequestError] "Failed to send request." after that one attempt. *)
Theorem send_request_transport_failure (env : Env) (c : DeepSeekClient)
  (chats : list Chat) (k : string) :
  check_params c = true -> api_key c = Some k ->
  post env (raw_request (into_request_json c (chats_to_json chats)) k) = None ->
  send_request env c chats
  = (c, [raw_request (into_request_json c (chats_to_json chats)) k],
     Err (mk_DeepSeekError RequestError "Failed to send request.")).
Proof.
  intros Hc Hk Hp. unfold send_request. rewrite Hc, Hk. cbn [negb].
  unfold send_request_raw. rewrite Hp. reflexivity.
Qed.

Lemma send_request_transport_failure_witness :
  send_request offline_env keyed_client sample_history
  = (keyed_client,
     [raw_request (into_request_json keyed_client (chats_to_json sample_history))
        "sk-test"],
     Err (mk_DeepSeekError RequestError "Failed to send request.")).
Proof. apply send_request_transport_failure; reflexivity. Defined.

(** On a non-2xx status whose body parses and has a string
    [error.message], [send_request] fails with [RequestError] and a message
    made of the status and the server's message. *)
Theorem send_request_status_failure (env : Env) (c : DeepSeekClient)
  (chats : list Chat) (k : string) (resp : http_response) (t : string)
  (r : json) (msg : string) :
  check_params c = true -> api_key c = Some k ->
  post env (raw_request (into_request_json c (chats_to_json chats)) k) = Some resp ->
  is_success (resp_status resp) = false ->
  resp_text resp = inl t -> parse env t = inl r ->
  index_key (index_key r "error") "message" = JString msg ->
  send_request env c chats
  = (c, [raw_request (into_request_json c (chats_to_json chats)) k],
     Err (mk_DeepSeekError RequestError
            ("Request failed with status: " ++ show_status env (resp_status resp)
             ++ ", " ++ msg))).
Proof.
  intros Hc Hk Hp Hs Ht Hr Hm. unfold send_request. rewrite Hc, Hk. cbn [negb].
  unfold send_request_raw. rewrite Hp, Hs, Ht, Hr. simpl json_to_string.
  rewrite Hm. reflexivity.
Qed.

Definition unauthorized_body : json :=
  JObject [("error", JObject [("message", JString "Authentication Fails")])].

Definition unauthorized_env : Env :=
  {| post := fun _ => Some {| resp_status := 401; resp_text := inl "denied" |};
     parse := fun _ => inl unauthorized_body;
     dump := fun _ => ""; show_status := fun _ => "401 Unauthorized" |}.

Lemma send_request_status_failure_witness :
  send_request unauthorized_env keyed_client sample_history
  = (keyed_client,
     [raw_request (into_request_json keyed_client (chats_to_json sample_history))
        "sk-test"],
     Err (mk_DeepSeekError RequestError
            ("Request failed with status: " ++ "401 Unauthorized" ++ ", "
             ++ "Authentication Fails"))).
Proof.
  apply (send_request_status_failure unauthorized_env keyed_client sample_history
           "sk-test" {| resp_status := 401; resp_text := inl "denied" |} "denied"
           unauthorized_body); reflexivity.
Defined.

(** For a client that passes [check_params], the body it would send never
    has [stream_options] without [stream: true], never has [top_logprobs]
    without [logprobs: true], and its [max_tokens] lies in [1, 8192]. *)
Theorem validated_request_body (c : DeepSeekClient) (msg : json) :
  check_params c = true ->
  (index_key (into_request_json c msg) "stream_options" <> JNull ->
   index_key (into_request_json c msg) "stream" = JBool true) /\
  (index_key (into_request_json c msg) "top_logprobs" <> JNull ->
   index_key (into_request_json c msg) "logprobs" = JBool true) /\
  exists m, index_key (into_request_json c msg) "max_tokens" = json_of_i32 m /\
            1 <= m <= 8192.
Proof.
  intros H. unfold check_params in H. rewrite !andb_true_iff in H.
  destruct H as (((((((_ & Hm) & _) & Hs) & _) & _) & Hl) & _).
  apply (proj1 (check_max_tokens_spec c)) in Hm.
  pose proof (proj1 (check_stream_option_spec c) Hs) as Hs'. clear Hs.
  pose proof (proj1 (check_top_logprobs_spec c) Hl) as Hl'. clear Hl.
  rename Hs' into Hs, Hl' into Hl.
  split; [|split].
  - simpl. intros Hn. f_equal. apply Hs.
    destruct (stream_option c); [discriminate | contradiction].
  - simpl. intros Hn. f_equal. apply Hl.
    destruct (top_logprobs c); [discriminate | contradiction].
  - simpl. destruct (max_tokens c) as [m|].
    + exists m. split; [reflexivity | exact Hm].
    + exists default_max_tokens. split; [reflexivity|]. unfold default_max_tokens. lia.
Qed.

Lemma validated_request_body_witness :
  check_params keyed_client = true /\
  ((index_key (into_request_json keyed_client (chats_to_json sample_history))
      "stream_options" <> JNull ->
    index_key (into_request_json keyed_client (chats_to_json sample_history))
      "stream" = JBool true) /\
   (index_key (into_request_json keyed_client (chats_to_json sample_history))
      "top_logprobs" <> JNull ->
    index_key (into_request_json keyed_client (chats_to_json sample_history))
      "logprobs" = JBool true) /\
   exists m, index_key (into_request_json keyed_client (chats_to_json sample_history))
               "max_tokens" = json_of_i32 m /\ 1 <= m <= 8192).
Proof. split; [reflexivity|]. apply validated_request_body. reflexivity. Defined.

(** [chats_to_json] keeps the history in order: entry [i] of the array has
    the content and the role of the [i]-th chat, and reading past the end
    gives null. *)
Theorem chats_to_json_nth (chats : list Chat) (i : nat) :
  index_key (index_nth (chats_to_json chats) i) "content"
  = match nth_error chats i with Some ch => JString (chat_content ch) | None => JNull end /\
  index_key (index_nth (chats_to_json chats) i) "role"
  = match nth_error chats i with Some ch => JString (chat_role ch) | None => JNull end.
Proof.
  unfold chats_to_json, index_nth.
  revert i. induction chats as [|ch rest IH]; intros [|i]; simpl; auto.
Qed.

(** ** API keys *)

(** On a fresh client, [api_key_from_env] and [api_key_from_file] either
    store the variable's value or the file's contents verbatim as the key,
    after which the client passes validation, or fail with [ApiKeyError]
    exactly when the variable or the file cannot be read. *)
Theorem api_key_loaders (getenv read_to_string : string -> option string)
  (u file : string) (m : DeepSeekModel) :
  match api_key_from_env getenv (DeepSeekClient_new u m) with
  | Ok c' => api_key c' = getenv "API_KEY" /\ getenv "API_KEY" <> None /\
             check_params c' = true
  | Err e => getenv "API_KEY" = None /\ ds_error_type e = ApiKeyError
  end /\
  match api_key_from_file read_to_string (DeepSeekClient_new u m) file with
  | Ok c' => api_key c' = read_to_string file /\ read_to_string file <> None /\
             check_params c' = true
  | Err e => read_to_string file = None /\ ds_error_type e = ApiKeyError
  end.
Proof.
  unfold api_key_from_env, api_key_from_file.
  split; [destruct (getenv "API_KEY") | destruct (read_to_string file)];
    repeat split; discriminate.
Qed.

(** The extension of [send_request_sent] beyond the configured-URL client
    of C2: every client that passes validation posts exactly once, to
    [DEEPSEEK_API_URL], with [Content-Type: application/json] and its own
    key as bearer token, whatever URL it stores. *)
Theorem send_request_posts_to_fixed_endpoint (env : Env) (c : DeepSeekClient)
  (chats : list Chat) :
  check_params c = true ->
  exists k r, api_key c = Some k /\
    snd (fst (send_request env c chats)) = [r] /\
    req_url r = DEEPSEEK_API_URL /\
    req_headers r = [("Content-Type", "application/json");
                     ("Authorization", "Bearer " ++ k)] /\
    req_body r = into_request_json c (chats_to_json chats).
Proof.
  intros Hc. destruct (send_request_sent env c chats Hc) as (k & Hk & E).
  exists k, (raw_request (into_request_json c (chats_to_json chats)) k).
  repeat split; assumption.
Qed.

Lemma send_request_posts_to_fixed_endpoint_witness :
  check_params configured_url_client = true /\
  exists k r, api_key configured_url_client = Some k /\
    snd (fst (send_request offline_env configured_url_client sample_history)) = [r] /\
    req_url r = DEEPSEEK_API_URL /\
    req_headers r = [("Content-Type", "application/json");
                     ("Authorization", "Bearer " ++ k)] /\
    req_body r = into_request_json configured_url_client (chats_to_json sample_history).
Proof.
  split; [reflexivity|]. apply send_request_posts_to_fixed_endpoint. reflexivity.
Defined.

(** ** [AINode::execute] *)

(** [execute] leaves the role, the prefix, the suffix and the input alone,
    only ever appends to the history (at least the user turn), and so keeps
    the role invariant: a system turn at index 0 stays there. *)
Theorem AINode_execute_frame (env : Env) (n : AINode) :
  let '(n', _, _) := AINode_execute env n in
  role n' = role n /\ prompt_prefix n' = prompt_prefix n /\
  prompt_suffix n' = prompt_suffix n /\ input n' = input n /\
  (exists ext, histroy n' = (histroy n ++ ext)%list /\ ext <> []) /\
  (role_inv n -> role_inv n').
Proof.
  destruct n as [[client] ro h pre suf inp]. unfold AINode_execute. cbn.
  destruct (send_request env client _) as [[cl s] [j|e]]; cbn;
    (split; [reflexivity|]); (split; [reflexivity|]); (split; [reflexivity|]);
    (split; [reflexivity|]); split;
    try (eexists; split; [rewrite <- ?app_assoc; reflexivity | discriminate]);
    unfold role_inv; cbn; destruct ro; auto;
    destruct h as [|c0 h]; cbn; auto; discriminate.
Qed.

Lemma AINode_execute_request_helper (env : Env) (n : AINode) (client : DeepSeekClient) :
  service n = DeepSeek client ->
  AINode_execute env n
  = let h := (histroy n ++ [Chat_new "user" (prompt_prefix n ++ newline ++ input n
                                            ++ newline ++ prompt_suffix n)])%list in
    let '(client', sent, r) := send_request env client h in
    match r with
    | Err e =>
        (set_fields n (DeepSeek client') (role n) h, sent,
         Err (mk_AINodeError (DeepSeekErr e) "Failed to send request to DeepSeek"))
    | Ok response =>
        let response_text := json_to_string env (response_content response) in
        (set_fields n (DeepSeek client') (role n)
           (h ++ [Chat_new "assistant" response_text])%list, sent, Ok response_text)
    end.
Proof. intros Hs. unfold AINode_execute. rewrite Hs. reflexivity. Qed.

(** With a client that passes validation, [execute] sends exactly one
    request, and its [messages] are the whole history (system turn
    included) followed by the new user turn. *)
Theorem AINode_execute_request (env : Env) (n : AINode) (client : DeepSeekClient) :
  service n = DeepSeek client -> check_params client = true ->
  exists k, api_key client = Some k /\
    snd (fst (AINode_execute env n))
    = [raw_request (into_request_json client (chats_to_json
         (histroy n ++ [Chat_new "user" (prompt_prefix n ++ newline ++ input n
                                         ++ newline ++ prompt_suffix n)])%list)) k].
Proof.
  intros Hs Hc. rewrite (AINode_execute_request_helper env n client Hs). cbv zeta.
  destruct (send_request_sent env client
              (histroy n ++ [Chat_new "user" (prompt_prefix n ++ newline ++ input n
                                              ++ newline ++ prompt_suffix n)])%list Hc)
    as (k & Hk & E).
  exists k. split; [exact Hk|].
  destruct (send_request env client _) as [[cl s] [j|e]]; exact E.
Qed.

Definition keyed_node : AINode :=
  mk_AINode (DeepSeek keyed_client) (Some "sys") [Chat_new "system" "sys"] "pre" "suf" "hi".

Lemma AINode_execute_request_witness :
  service keyed_node = DeepSeek keyed_client /\ check_params keyed_client = true /\
  exists k, api_key keyed_client = Some k /\
    snd (fst (AINode_execute offline_env keyed_node))
    = [raw_request (into_request_json keyed_client (chats_to_json
         (histroy keyed_node ++ [Chat_new "user" (prompt_prefix keyed_node ++ newline
            ++ input keyed_node ++ newline ++ prompt_suffix keyed_node)])%list)) k].
Proof.
  split; [reflexivity|]. split; [reflexivity|].
  apply AINode_execute_request; reflexivity.
Defined.

(** With a client that fails validation, [execute] sends nothing, leaves
    the client as it was, still appends the user turn, and returns the
    [RequestParamError] wrapped once. *)
Theorem AINode_execute_invalid_params (env : Env) (n : AINode) (client : DeepSeekClient) :
  service n = DeepSeek client -> check_params client = false ->
  AINode_execute env n
  = (set_fields n (DeepSeek client) (role n)
       (histroy n ++ [Chat_new "user" (prompt_prefix n ++ newline ++ input n
                                       ++ newline ++ prompt_suffix n)])%list,
     [],
     Err (mk_AINodeError
            (DeepSeekErr (mk_DeepSeekError RequestParamError "The parameters are not valid."))
            "Failed to send request to DeepSeek")).
Proof.
  intros Hs Hc. rewrite (AINode_execute_request_helper env n client Hs). cbv zeta.
  unfold send_request. rewrite Hc. reflexivity.
Qed.

Lemma AINode_execute_invalid_params_witness :
  service fresh_node = DeepSeek (DeepSeekClient_new DEEPSEEK_API_URL DeepseekChat) /\
  check_params (DeepSeekClient_new DEEPSEEK_API_URL DeepseekChat) = false /\
  AINode_execute offline_env fresh_node
  = (set_fields fresh_node (DeepSeek (DeepSeekClient_new DEEPSEEK_API_URL DeepseekChat))
       (role fresh_node)
       (histroy fresh_node ++ [Chat_new "user" (prompt_prefix fresh_node ++ newline
          ++ input fresh_node ++ newline ++ prompt_suffix fresh_node)])%list,
     [],
     Err (mk_AINodeError
            (DeepSeekErr (mk_DeepSeekError RequestParamError "The parameters are not valid."))
            "Failed to send request to DeepSeek")).
Proof.
  split; [reflexivity|]. split; [reflexivity|].
  apply AINode_execute_invalid_params; reflexivity.
Defined.

(** ** The [role] builder in sequence *)

(** [role(None)] leaves the history alone, so on a node without a role,
    [role(Some x)], then [role(None)], then [role(Some y)] leaves two
    system turns at the front: [y] then [x]. *)
Theorem AINode_role_reset_stacks_system_turns (n : AINode) (x y : string) :
  role n = None ->
  match AINode_role n (Some x) with
  | Some n1 => match AINode_role n1 None with
               | Some n2 => AINode_role n2 (Some y)
               | None => None
               end
  | None => None
  end
  = Some (set_fields n (service n) (Some y)
            (Chat_new "system" y :: Chat_new "system" x :: histroy n)).
Proof. intros H. unfold AINode_role. rewrite H. reflexivity. Qed.

Lemma AINode_role_reset_stacks_system_turns_witness :
  role fresh_node = None /\
  match AINode_role fresh_node (Some "A") with
  | Some n1 => match AINode_role n1 None with
               | Some n2 => AINode_role n2 (Some "B")
               | None => None
               end
  | None => None
  end
  = Some (set_fields fresh_node (service fresh_node) (Some "B")
            (Chat_new "system" "B" :: Chat_new "system" "A" :: histroy fresh_node)).
Proof.
  split; [reflexivity|]. apply AINode_role_reset_stacks_system_turns. reflexivity.
Defined.

(** ** [Worknode] *)

Lemma Worknode_excute_uid (env : Env) (w : Worknode) (inp : string) :
  uid (fst (fst (Worknode_excute env w inp))) = uid w.
Proof.
  unfold Worknode_excute.
  destruct (Worknodecore_excute env (node w) inp) as [[core' sent] r]. reflexivity.
Qed.

(** No sequence of [excute] and [set_node] calls changes the [uid] a
    [Worknode] got at construction. *)
Theorem Worknode_uid_stable (env : Env) (w : Worknode) (ops : list worknode_op) :
  uid (run_worknode_ops env w ops) = uid w.
Proof.
  revert w. induction ops as [|op ops IH]; intros w; [reflexivity|].
  destruct op as [inp|core]; simpl.
  - pose proof (Worknode_excute_uid env w inp) as E.
    destruct (Worknode_excute env w inp) as [[w' sent] r]. simpl in E.
    rewrite IH. exact E.
  - rewrite IH. reflexivity.
Qed.

(** A [Worknode] holding an [AINode] whose client fails validation sends
    nothing and fails with an error that displays as the three layers,
    outermost first. *)
Theorem Worknode_invalid_params_display (env : Env) (w : Worknode) (inp : string)
  (n : AINode) (client : DeepSeekClient) :
  node w = AINodeCore n -> service n = DeepSeek client -> check_params client = false ->
  let '(w', sent, r) := Worknode_excute env w inp in
  uid w' = uid w /\ sent = [] /\
  match r with
  | Ok _ => False
  | Err e =>
      PilotError_fmt e
      = Some ("AINodeError: AI node failed to execute" ++ newline ++
              "DeepSeekError: Failed to send request to DeepSeek" ++ newline ++
              "RequestParamError: The parameters are not valid.")
  end.
Proof.
  intros Hw Hs Hc. unfold Worknode_excute. rewrite Hw. cbn [Worknodecore_excute].
  rewrite (AINode_execute_request_helper env n client Hs). cbv zeta.
  unfold send_request. rewrite Hc. cbn [negb].
  split; [reflexivity|]. split; reflexivity.
Qed.

Definition fresh_worknode : Worknode := Worknode_new 7 (AINodeCore fresh_node).

Lemma Worknode_invalid_params_display_witness :
  node fresh_worknode = AINodeCore fresh_node /\
  service fresh_node = DeepSeek (DeepSeekClient_new DEEPSEEK_API_URL DeepseekChat) /\
  check_params (DeepSeekClient_new DEEPSEEK_API_URL DeepseekChat) = false /\
  let '(w', sent, r) := Worknode_excute offline_env fresh_worknode "hello" in
  uid w' = uid fresh_worknode /\ sent = [] /\
  match r with
  | Ok _ => False
  | Err e =>
      PilotError_fmt e
      = Some ("AINodeError: AI node failed to execute" ++ newline ++
              "DeepSeekError: Failed to send request to DeepSeek" ++ newline ++
              "RequestParamError: The parameters are not valid.")
  end.
Proof.
  split; [reflexivity|]. split; [reflexivity|]. split; [reflexivity|].
  apply (Worknode_invalid_params_display offline_env fresh_worknode "hello" fresh_node
           (DeepSeekClient_new DEEPSEEK_API_URL DeepseekChat)); reflexivity.
Defined.
